(** * Deployments client (client/deployments/client.go)

    A shallow embedding of the two operations of the deployments client,
    [GetDeployments] and [GetLatestFinishedDeployment], together with the
    pieces of the Go libraries they call.  Effects (the context's cancel
    function, the HTTP round trip, the error log record, closing the
    response body) are recorded in a trace; [defer] is modelled by a stack
    of pending calls that is flushed, last in first out, when the function
    returns. *)

From Stdlib Require Import String Ascii List ZArith Lia Bool Arith.
From Stdlib Require Import DecimalString.
Import ListNotations.

Local Open Scope list_scope.
Local Open Scope string_scope.

(** ** Go values *)

(** A Go slice is either [nil] or a (possibly empty) sequence. *)
Definition slice (A : Type) : Type := option (list A).

(** A Go pointer is either [nil] or points to a value. *)
Definition ptr (A : Type) : Type := option A.

Definition len {A : Type} (s : slice A) : nat :=
  match s with
  | None => 0
  | Some l => length l
  end.

(** ** package errors (github.com/pkg/errors)

    An [error] is a library error carrying its message, a fundamental error
    made by [errors.New] / [errors.Errorf], or an error wrapped with a
    message by [errors.Wrap] / [errors.Wrapf]. *)
Inductive error : Type :=
| libError (msg : string)
| fundamental (msg : string)
| withMessage (cause : error) (msg : string).

Fixpoint Error (e : error) : string :=
  match e with
  | libError msg => msg
  | fundamental msg => msg
  | withMessage cause msg => msg ++ ": " ++ Error cause
  end.

Definition errors_New (msg : string) : error := fundamental msg.
Definition errors_Wrap (err : error) (msg : string) : error := withMessage err msg.

(** ** package strings *)

(** [strings.Replace(s, old, new, n)] for a non-empty [old] and [n >= 0]:
    the first [n] non-overlapping occurrences of [old], left to right, are
    replaced by [new]. *)
Fixpoint strings_Replace (s old new : string) (n : nat) : string :=
  match n with
  | O => s
  | S n' =>
      match index 0 old s with
      | None => s
      | Some i =>
          let after := i + String.length old in
          substring 0 i s ++ new ++
          strings_Replace (substring after (String.length s - after) s) old new n'
      end
  end.

(** [s] occurs in [t]. *)
Definition Contains (t s : string) : Prop :=
  exists pre post, t = pre ++ s ++ post.

(** ** package strconv *)

Definition strconv_Itoa (n : nat) : string :=
  NilZero.string_of_uint (Nat.to_uint n).

(** ** package context

    Only the deadline of a context is modelled; times are nanoseconds. *)
Record Context : Type := mkContext { Deadline : option Z }.

Definition Second : Z := 1000000000.

(** [context.WithDeadline]: when the parent's deadline is already sooner
    than [d] the parent's deadline stays, otherwise the deadline is [d]. *)
Definition context_WithDeadline (parent : Context) (d : Z) : Context :=
  match Deadline parent with
  | Some cur => if (cur <? d)%Z then parent else mkContext (Some d)
  | None => mkContext (Some d)
  end.

(** [context.WithTimeout(parent, timeout)] is
    [WithDeadline(parent, time.Now().Add(timeout))]. *)
Definition context_WithTimeout (now : Z) (parent : Context) (timeout : Z) : Context :=
  context_WithDeadline parent (now + timeout)%Z.

(** ** package net/url: Values *)

(** [url.Values] is a [map[string][]string].  The map is kept as an
    association list in which the first entry of a key is the one that
    counts. *)
Definition Values : Type := list (string * list string).

(** [v[key]] (the empty list when the key is absent). *)
Fixpoint Values_get (v : Values) (key : string) : list string :=
  match v with
  | [] => []
  | (k, vs) :: rest => if String.eqb key k then vs else Values_get rest key
  end.

(** [v.Add(key, value)]: [v[key] = append(v[key], value)]. *)
Fixpoint Values_Add (v : Values) (key value : string) : Values :=
  match v with
  | [] => [(key, [value])]
  | (k, vs) :: rest =>
      if String.eqb key k then (k, (vs ++ [value])%list) :: rest
      else (k, vs) :: Values_Add rest key value
  end.

Fixpoint insert_key (k : string) (keys : list string) : list string :=
  match keys with
  | [] => [k]
  | h :: t => if String.leb k h then k :: keys else h :: insert_key k t
  end.

(** The keys of the map, sorted as [slices.Sort] sorts strings. *)
Definition Values_keys (v : Values) : list string :=
  fold_right insert_key [] (nodup string_dec (map fst v)).

Definition hexdigit (n : nat) : ascii :=
  nth n (list_ascii_of_string "0123456789ABCDEF") "0"%char.

Definition isAlnum (c : ascii) : bool :=
  let n := nat_of_ascii c in
  ((48 <=? n)%nat && (n <=? 57)%nat) || ((65 <=? n)%nat && (n <=? 90)%nat)
  || ((97 <=? n)%nat && (n <=? 122)%nat).

(** [shouldEscape(c, encodeQueryComponent)]: everything except letters,
    digits and [-_.~] is escaped. *)
Definition shouldEscape (c : ascii) : bool :=
  negb (isAlnum c || Ascii.eqb c "-" || Ascii.eqb c "_" || Ascii.eqb c "." || Ascii.eqb c "~").

Fixpoint url_QueryEscape (s : string) : string :=
  match s with
  | EmptyString => EmptyString
  | String c s' =>
      if Ascii.eqb c " " then String "+" (url_QueryEscape s')
      else if shouldEscape c then
        let n := nat_of_ascii c in
        String "%" (String (hexdigit (n / 16)%nat)
          (String (hexdigit (n mod 16)%nat) (url_QueryEscape s')))
      else String c (url_QueryEscape s')
  end.

(** The [key=value] pairs [Encode] writes, in the order it writes them:
    keys sorted, the values of one key in their order. *)
Definition Values_pairs (v : Values) : list string :=
  flat_map (fun k => map (fun x => url_QueryEscape k ++ "=" ++ url_QueryEscape x)
                         (Values_get v k))
           (Values_keys v).

Definition Values_Encode (v : Values) : string :=
  String.concat "&" (Values_pairs v).

(** ** package net/http *)

Definition MethodGet : string := "GET".
Definition StatusOK : Z := 200.
Definition StatusNotFound : Z := 404.

Section Client.

(** The pieces the client is linked against and the world it talks to.
    [DeviceDeployment] is declared in another file of the package and only
    ever decoded here; [utils.JoinURL] lives in another package. *)
Context {DeviceDeployment : Type} {ParsedURL : Type}.

(** [*url.URL]: the parsed URL with its [RawQuery] field, the one field the
    client assigns. *)
Record URL : Type := mkURL { parsed : ParsedURL; RawQuery : string }.

Record Request : Type := mkRequest {
  req_ctx : Context;
  Method : string;
  req_URL : URL
}.

Record Response : Type := mkResponse {
  StatusCode : Z;
  Status : string;
  Body : string
}.

Record World : Type := mkWorld {
  (** [utils.JoinURL] *)
  JoinURL : string -> string -> string;
  (** [url.Parse], as called by [http.NewRequestWithContext] *)
  url_Parse : string -> error + URL;
  (** [url.ParseQuery], with its error dropped as [URL.Query] drops it *)
  url_ParseQuery : string -> Values;
  (** [URL.String], what the verb [%s] prints for a URL *)
  URL_String : URL -> string;
  (** [time.Now()] at the time the timeout is derived *)
  Now : Z;
  (** the round trip made by [http.Client.Do] *)
  Do : Request -> error + Response;
  (** [json.NewDecoder(body).Decode(&devDevs)] on a nil [devDevs] *)
  Decode : string -> error + slice (ptr DeviceDeployment)
}.

(** [u.Query()] parses [u.RawQuery]. *)
Definition URL_Query (W : World) (u : URL) : Values := url_ParseQuery W (RawQuery u).

(** [http.NewRequestWithContext(ctx, method, url, nil)] with a valid method
    and a non-nil context fails exactly when the URL does not parse. *)
Definition http_NewRequestWithContext (W : World) (ctx : Context) (method url : string)
  : error + Request :=
  match url_Parse W url with
  | inl err => inl err
  | inr u => inr (mkRequest ctx method u)
  end.

(** ** Effects *)

Inductive event : Type :=
| EvCancel                      (* cancel() of the derived context *)
| EvDo (req : Request)          (* c.client.Do(req) *)
| EvErrorf (format : string)    (* l.Errorf(format) *)
| EvClose (body : string).      (* rsp.Body.Close() *)

(** The state of one call: what has happened so far, and the deferred
    calls, most recent first. *)
Record frame : Type := mkFrame { trace : list event; deferred : list event }.

(** A piece of a function body returning [R]: it either returns from the
    function ([inl]) or goes on with a value ([inr]). *)
Definition Fn (R A : Type) : Type := frame -> (R + A) * frame.

Definition Return {R A : Type} (r : R) : Fn R A := fun s => (inl r, s).
Definition pure {R A : Type} (a : A) : Fn R A := fun s => (inr a, s).

Definition bind {R A B : Type} (m : Fn R A) (k : A -> Fn R B) : Fn R B :=
  fun s =>
    match m s with
    | (inl r, s') => (inl r, s')
    | (inr a, s') => k a s'
    end.

Definition emit {R : Type} (e : event) : Fn R unit :=
  fun s => (inr tt, mkFrame (trace s ++ [e])%list (deferred s)).

Definition defer {R : Type} (e : event) : Fn R unit :=
  fun s => (inr tt, mkFrame (trace s) (e :: deferred s)).

(** Calling a function: run its body in a fresh frame, then the deferred
    calls. *)
Definition call {R : Type} (body : Fn R R) : R * list event :=
  match body (mkFrame [] []) with
  | (inl r, s) => (r, (trace s ++ deferred s)%list)
  | (inr r, s) => (r, (trace s ++ deferred s)%list)
  end.

Notation "x <- m ;; k" := (bind m (fun x => k))
  (at level 61, m at next level, right associativity).
Notation "m ;;; k" := (bind m (fun _ => k))
  (at level 61, right associativity).

(** ** The client *)

Definition urlDeviceDeployments : string :=
  "/api/internal/v1/deployments/tenants/:tid/deployments/devices".
Definition urlDeviceDeploymentsID : string := urlDeviceDeployments ++ "/:id".
Definition defaultTimeout : Z := 10 * Second.
Definition maxPerPage : nat := 100.

Record client : Type := mkClient { urlBase : string }.

Definition NewClient (urlBase : string) : client := mkClient urlBase.

Variable W : World.

(** [c.client.Do(req)] *)
Definition client_Do {R : Type} (req : Request) : Fn R (error + Response) :=
  emit (EvDo req) ;;; pure (Do W req).

Definition GetDeployments_body (c : client) (ctx : Context) (tenantID : string)
  (IDs : list string) : Fn (slice (ptr DeviceDeployment) * option error)
                           (slice (ptr DeviceDeployment) * option error) :=
  let url := JoinURL W (urlBase c) urlDeviceDeployments in
  let url := strings_Replace url ":tid" tenantID 1 in
  let ctx := context_WithTimeout (Now W) ctx defaultTimeout in
  defer EvCancel ;;;
  match http_NewRequestWithContext W ctx MethodGet url with
  | inl err => Return (None, Some (errors_Wrap err "failed to create request"))
  | inr req =>
      let nIDs := length IDs in
      if (maxPerPage <? nIDs)%nat then Return (None, Some (errors_New "too many IDs"))
      else
        let q := URL_Query W (req_URL req) in
        let q := Values_Add q "page" "1" in
        let q := Values_Add q "per_page" (strconv_Itoa nIDs) in
        let q := fold_left (fun q id => Values_Add q "id" id) IDs q in
        let req := mkRequest (req_ctx req) (Method req)
                     (mkURL (parsed (req_URL req)) (Values_Encode q)) in
        rsp <- client_Do req ;;
        match rsp with
        | inl err =>
            Return (None, Some (errors_Wrap err
              ("failed to submit " ++ Method req ++ " " ++ URL_String W (req_URL req))))
        | inr rsp =>
            defer (EvClose (Body rsp)) ;;;
            if (StatusCode rsp =? StatusNotFound)%Z then Return (None, None)
            else if negb (StatusCode rsp =? StatusOK)%Z then
              let err := errors_New (Method req ++ " " ++ URL_String W (req_URL req) ++
                                     " request failed with status " ++ Status rsp) in
              emit (EvErrorf (Error err)) ;;;
              Return (None, Some err)
            else
              match Decode W (Body rsp) with
              | inl err => Return (None, Some (errors_Wrap err "failed to parse request body"))
              | inr devDevs =>
                  if (len devDevs =? 0)%nat then Return (None, None)
                  else Return (devDevs, None)
              end
        end
  end.

Definition GetDeployments (c : client) (ctx : Context) (tenantID : string)
  (IDs : list string) : (slice (ptr DeviceDeployment) * option error) * list event :=
  call (GetDeployments_body c ctx tenantID IDs).

Definition GetLatestFinishedDeployment_body (c : client) (ctx : Context)
  (tenantID deviceID : string) : Fn (ptr DeviceDeployment * option error)
                                    (ptr DeviceDeployment * option error) :=
  let url := JoinURL W (urlBase c) urlDeviceDeploymentsID in
  let url := strings_Replace url ":tid" tenantID 1 in
  let url := strings_Replace url ":id" deviceID 1 in
  let ctx := context_WithTimeout (Now W) ctx defaultTimeout in
  defer EvCancel ;;;
  match http_NewRequestWithContext W ctx MethodGet url with
  | inl err => Return (None, Some (errors_Wrap err "failed to create request"))
  | inr req =>
      let q := URL_Query W (req_URL req) in
      let q := Values_Add q "page" "1" in
      let q := Values_Add q "per_page" "1" in
      let req := mkRequest (req_ctx req) (Method req)
                   (mkURL (parsed (req_URL req)) (Values_Encode q)) in
      rsp <- client_Do req ;;
      match rsp with
      | inl err =>
          Return (None, Some (errors_Wrap err
            ("failed to submit " ++ Method req ++ " " ++ URL_String W (req_URL req))))
      | inr rsp =>
          defer (EvClose (Body rsp)) ;;;
          if (StatusCode rsp =? StatusNotFound)%Z then Return (None, None)
          else if negb (StatusCode rsp =? StatusOK)%Z then
            let err := errors_New (Method req ++ " " ++ URL_String W (req_URL req) ++
                                   " request failed with status " ++ Status rsp) in
            emit (EvErrorf (Error err)) ;;;
            Return (None, Some err)
          else
            match Decode W (Body rsp) with
            | inl err => Return (None, Some (errors_Wrap err "failed to parse request body"))
            | inr devDevs =>
                if (len devDevs =? 0)%nat then Return (None, None)
                else
                  match devDevs with
                  | Some (d :: _) => Return (d, None)      (* devDevs[0] *)
                  | _ => Return (None, None)               (* not reached: len devDevs <> 0 *)
                  end
            end
      end
  end.

Definition GetLatestFinishedDeployment (c : client) (ctx : Context)
  (tenantID deviceID : string) : (ptr DeviceDeployment * option error) * list event :=
  call (GetLatestFinishedDeployment_body c ctx tenantID deviceID).

End Client.


(** ** The two operations side by side *)

Section Operations.

Context {DeviceDeployment : Type} {ParsedURL : Type}.

Inductive operation : Type :=
| OpGetDeployments (IDs : list string)
| OpGetLatestFinishedDeployment (deviceID : string).

Inductive result : Type :=
| Deployments (devDevs : slice (ptr DeviceDeployment))
| Deployment (devDev : ptr DeviceDeployment).

(** The nil result of an operation. *)
Definition nil_result (op : operation) : result :=
  match op with
  | OpGetDeployments _ => Deployments None
  | OpGetLatestFinishedDeployment _ => Deployment None
  end.

(** One call of either operation: what it returns, and what it did. *)
Definition invoke (W : @World DeviceDeployment ParsedURL) (c : client) (ctx : Context)
  (tenantID : string) (op : operation) : (result * option error) * list event :=
  match op with
  | OpGetDeployments IDs =>
      let '(r, err, t) := GetDeployments W c ctx tenantID IDs in (Deployments r, err, t)
  | OpGetLatestFinishedDeployment deviceID =>
      let '(r, err, t) := GetLatestFinishedDeployment W c ctx tenantID deviceID in
      (Deployment r, err, t)
  end.

(** The URL text each operation hands to [http.NewRequestWithContext]. *)
Definition GetDeployments_url (W : @World DeviceDeployment ParsedURL) (c : client)
  (tenantID : string) : string :=
  strings_Replace (JoinURL W (urlBase c) urlDeviceDeployments) ":tid" tenantID 1.

Definition GetLatestFinishedDeployment_url (W : @World DeviceDeployment ParsedURL)
  (c : client) (tenantID deviceID : string) : string :=
  strings_Replace
    (strings_Replace (JoinURL W (urlBase c) urlDeviceDeploymentsID) ":tid" tenantID 1)
    ":id" deviceID 1.

(** The query [GetDeployments] encodes, starting from the query [q] the
    URL already has. *)
Definition GetDeployments_query (q : Values) (IDs : list string) : Values :=
  fold_left (fun q id => Values_Add q "id" id) IDs
    (Values_Add (Values_Add q "page" "1") "per_page" (strconv_Itoa (length IDs))).

(** The [Do] calls of a trace, in order. *)
Fixpoint requests (t : list (@event ParsedURL)) : list (@Request ParsedURL) :=
  match t with
  | [] => []
  | EvDo req :: t' => req :: requests t'
  | _ :: t' => requests t'
  end.


End Operations.

(** ** A test double

    A small world to run the client in: URLs are kept as text, deployments
    are numbers, and the server's reply is chosen by the test. *)
Module Mock.

(** Modelled from the spec: [utils.JoinURL] is not under src/; the spec only
    calls it the URL-joining utility that joins the base URL with a path.
    The join puts exactly one slash between the two. *)
Definition JoinURL (base url : string) : string :=
  let url := match url with
             | String "/" rest => rest
             | _ => url
             end in
  let base := if String.eqb (substring (String.length base - 1) 1 base) "/"
              then base else base ++ "/" in
  base ++ url.

(** [stringContainsCTLByte] of net/url. *)
Fixpoint stringContainsCTLByte (s : string) : bool :=
  match s with
  | EmptyString => false
  | String c s' =>
      let b := nat_of_ascii c in
      (b <? 32)%nat || (b =? 127)%nat || stringContainsCTLByte s'
  end.

(** The text before the first [sep], and the text after it. *)
Fixpoint Cut (s : string) (sep : ascii) : string * string :=
  match s with
  | EmptyString => (EmptyString, EmptyString)
  | String c s' =>
      if Ascii.eqb c sep then (EmptyString, s')
      else let '(before, after) := Cut s' sep in (String c before, after)
  end.

(** [url.Parse] refuses a URL with an ASCII control character; the double
    accepts every other text, split at the first question mark. *)
Definition url_Parse (rawURL : string) : error + @URL string :=
  if stringContainsCTLByte rawURL
  then inl (libError "net/url: invalid control character in URL")
  else let '(rest, query) := Cut rawURL "?" in inr (mkURL rest query).

Fixpoint splitOn (s : string) (sep : ascii) : list string :=
  match s with
  | EmptyString => [EmptyString]
  | String c s' =>
      if Ascii.eqb c sep then EmptyString :: splitOn s' sep
      else match splitOn s' sep with
           | [] => [String c EmptyString]
           | h :: t => String c h :: t
           end
  end.

(** [url.ParseQuery] for queries without escapes. *)
Definition url_ParseQuery (query : string) : Values :=
  fold_left (fun m kv =>
               if String.eqb kv "" then m
               else let '(key, value) := Cut kv "=" in Values_Add m key value)
            (splitOn query "&") [].

Definition URL_String (u : @URL string) : string :=
  if String.eqb (RawQuery u) "" then parsed u else parsed u ++ "?" ++ RawQuery u.

(** The decoder knows a handful of bodies. *)
Definition Decode (body : string) : error + slice (ptr nat) :=
  if String.eqb body "null" then inr None
  else if String.eqb body "[]" then inr (Some [])
  else if String.eqb body "[7]" then inr (Some [Some 7])
  else if String.eqb body "[7,3,7]" then inr (Some [Some 7; Some 3; Some 7])
  else inl (libError "invalid character").

(** The world in which the server replies [reply] to every request, at
    time [now]. *)
Definition world (now : Z) (reply : error + Response) : @World nat string :=
  mkWorld JoinURL url_Parse url_ParseQuery URL_String now (fun _ => reply) Decode.

Definition reply (code : Z) (status body : string) : error + Response :=
  inr (mkResponse code status body).

Definition c : client := NewClient "http://localhost:8080".

Definition background : Context := mkContext None.

(** A tenant ID with a line feed in it: its URL does not parse. *)
Definition bad_tenantID : string := String "010" EmptyString.

End Mock.

(** ** What a call asks for *)

Section Asked.

Context {DeviceDeployment : Type} {ParsedURL : Type}.

(** The URL text of either operation. *)
Definition op_url (W : @World DeviceDeployment ParsedURL) (c : client)
  (tenantID : string) (op : operation) : string :=
  match op with
  | OpGetDeployments _ => GetDeployments_url W c tenantID
  | OpGetLatestFinishedDeployment deviceID =>
      GetLatestFinishedDeployment_url W c tenantID deviceID
  end.

(** The query either operation encodes, starting from the query [q] the
    URL already has. *)
Definition op_query (q : Values) (op : operation) : Values :=
  match op with
  | OpGetDeployments IDs => GetDeployments_query q IDs
  | OpGetLatestFinishedDeployment _ => Values_Add (Values_Add q "page" "1") "per_page" "1"
  end.

(** The count check of [GetDeployments]; the other operation has none. *)
Definition too_many (op : operation) : bool :=
  match op with
  | OpGetDeployments IDs => (maxPerPage <? length IDs)%nat
  | OpGetLatestFinishedDeployment _ => false
  end.

(** The request built from the parsed URL [u]. *)
Definition op_request (W : @World DeviceDeployment ParsedURL) (ctx : Context)
  (u : URL) (op : operation) : Request :=
  mkRequest (context_WithTimeout (Now W) ctx defaultTimeout) MethodGet
    (mkURL (parsed u) (Values_Encode (op_query (URL_Query W u) op))).


(** The same world with another JSON decoder. *)
Definition with_Decode (W : @World DeviceDeployment ParsedURL)
  (decode : string -> error + slice (ptr DeviceDeployment)) : World :=
  mkWorld (JoinURL W) (url_Parse W) (url_ParseQuery W) (URL_String W) (Now W) (Do W) decode.

(** The messages handed to the logger, in order. *)
Fixpoint logged (t : list (@event ParsedURL)) : list string :=
  match t with
  | [] => []
  | EvErrorf format :: t' => format :: logged t'
  | _ :: t' => logged t'
  end.

End Asked.

(** How often the byte [b] occurs in [s]. *)
Fixpoint count_byte (b : ascii) (s : string) : nat :=
  match s with
  | EmptyString => 0
  | String c s' => (if Ascii.eqb c b then 1 else 0) + count_byte b s'
  end.

(** * Properties *)

(** Unfolds one call down to the choices the world makes. *)
Ltac run_client :=
  unfold invoke, GetDeployments, GetLatestFinishedDeployment, call,
    GetDeployments_body, GetLatestFinishedDeployment_body, client_Do in *;
  unfold bind, emit, defer, Return, pure, http_NewRequestWithContext in *;
  cbn [trace deferred fst snd app req_ctx Method req_URL parsed] in *.

(** Splits on the next choice of the world in the goal. *)
Ltac next_choice :=
  match goal with
  | |- context [match url_Parse ?W ?u with _ => _ end] =>
      let E := fresh "Eparse" in destruct (url_Parse W u) eqn:E
  | |- context [if (maxPerPage <? ?n)%nat then _ else _] =>
      let E := fresh "Ecount" in destruct (maxPerPage <? n)%nat eqn:E
  | |- context [match Do ?W ?r with _ => _ end] =>
      let E := fresh "Edo" in destruct (Do W r) eqn:E
  | |- context [if (StatusCode ?r =? StatusNotFound)%Z then _ else _] =>
      let E := fresh "Enotfound" in destruct (StatusCode r =? StatusNotFound)%Z eqn:E
  | |- context [if negb (StatusCode ?r =? StatusOK)%Z then _ else _] =>
      let E := fresh "Eok" in destruct (StatusCode r =? StatusOK)%Z eqn:E
  | |- context [match Decode ?W ?b with _ => _ end] =>
      let E := fresh "Edecode" in destruct (Decode W b) eqn:E
  | |- context [if (len ?s =? 0)%nat then _ else _] =>
      let E := fresh "Elen" in destruct s as [[|? ?]|] eqn:E
  end;
  cbn [trace deferred fst snd app negb len length Nat.eqb
       req_ctx Method req_URL parsed] in *.

Ltac choices := run_client; repeat next_choice.

(** Identifies the request of a hypothesis [In (EvDo req) trace] with the
    one the call sent, and the world's answer to it. *)
Ltac only_request :=
  repeat match goal with
  | H : In _ _ |- _ => cbn [In] in H
  | H : _ = EvDo _ \/ _ |- _ => destruct H
  | H : False |- _ => destruct H
  | H : EvDo _ = EvDo _ |- _ => injection H as H; subst
  | H : _ = EvDo _ |- _ => discriminate H
  | H1 : Do ?W ?r = _, H2 : Do ?W ?r = _ |- _ =>
      rewrite H1 in H2; first [discriminate H2 | injection H2 as H2; subst]
  end.

(** Turns the status tests into (in)equalities. *)
Ltac status_tests :=
  repeat match goal with
  | H : (_ =? _)%Z = true |- _ => apply Z.eqb_eq in H
  | H : (_ =? _)%Z = false |- _ => apply Z.eqb_neq in H
  end;
  unfold StatusNotFound, StatusOK in *.

Lemma string_app_assoc (a b c : string) : (a ++ b) ++ c = a ++ b ++ c.
Proof. induction a as [|x a IH]; simpl; [reflexivity | now rewrite IH]. Qed.

Lemma string_app_empty_r (a : string) : a ++ "" = a.
Proof. induction a as [|x a IH]; simpl; [reflexivity | now rewrite IH]. Qed.

Lemma Contains_self (s : string) : Contains s s.
Proof. exists "", "". simpl. now rewrite string_app_empty_r. Qed.

Lemma Contains_prefix (s post : string) : Contains (s ++ post) s.
Proof. exists "", post. reflexivity. Qed.

Lemma Contains_app_r (pre t s : string) : Contains t s -> Contains (pre ++ t) s.
Proof.
  intros [p [q ->]]. exists (pre ++ p), q. now rewrite string_app_assoc.
Qed.

Create HintDb contains.
#[local] Hint Resolve Contains_self Contains_prefix Contains_app_r : contains.

(** [Add] appends to the values of its key and leaves the other keys. *)
Lemma Values_get_Add (v : Values) (key value k : string) :
  Values_get (Values_Add v key value) k =
  if String.eqb k key then (Values_get v key ++ [value])%list else Values_get v k.
Proof.
  induction v as [|[k0 vs] v IH]; cbn [Values_Add Values_get].
  - destruct (String.eqb k key); reflexivity.
  - destruct (String.eqb key k0) eqn:E0; cbn [Values_get].
    + apply String.eqb_eq in E0. subst k0.
      destruct (String.eqb k key); reflexivity.
    + rewrite IH.
      destruct (String.eqb k k0) eqn:E1; [|reflexivity].
      apply String.eqb_eq in E1. subst k0.
      rewrite String.eqb_sym, E0. reflexivity.
Qed.

Lemma Values_get_Add_ids (IDs : list string) (q : Values) (k : string) :
  Values_get (fold_left (fun q id => Values_Add q "id" id) IDs q) k =
  if String.eqb k "id" then (Values_get q "id" ++ IDs)%list else Values_get q k.
Proof.
  revert q. induction IDs as [|id IDs IH]; intros q; cbn [fold_left].
  - destruct (String.eqb k "id") eqn:E; [|reflexivity].
    apply String.eqb_eq in E. subst k. now rewrite app_nil_r.
  - rewrite IH, !Values_get_Add. rewrite String.eqb_refl.
    destruct (String.eqb k "id"); [|reflexivity].
    now rewrite <- app_assoc.
Qed.

(** The values of the three keys after [GetDeployments] has filled the
    query. *)
Lemma GetDeployments_query_get (q : Values) (IDs : list string) :
  Values_get (GetDeployments_query q IDs) "page" = (Values_get q "page" ++ ["1"])%list /\
  Values_get (GetDeployments_query q IDs) "per_page" =
    (Values_get q "per_page" ++ [strconv_Itoa (length IDs)])%list /\
  Values_get (GetDeployments_query q IDs) "id" = (Values_get q "id" ++ IDs)%list.
Proof.
  unfold GetDeployments_query.
  rewrite !Values_get_Add_ids, !Values_get_Add. cbn. auto.
Qed.

Lemma Add_ids_last (IDs vs : list string) (p pp : string * list string) :
  fst p <> "id" -> fst pp <> "id" ->
  fold_left (fun q id => Values_Add q "id" id) IDs [p; pp; ("id", vs)] =
  [p; pp; ("id", (vs ++ IDs)%list)].
Proof.
  intros Hp Hpp. apply String.eqb_neq in Hp, Hpp.
  rewrite String.eqb_sym in Hp. rewrite String.eqb_sym in Hpp.
  revert vs. induction IDs as [|id IDs IH]; intros vs; cbn [fold_left].
  - now rewrite app_nil_r.
  - destruct p as [kp vp], pp as [kpp vpp]. cbn [Values_Add fst] in *.
    rewrite Hp, Hpp, String.eqb_refl. rewrite IH. now rewrite <- app_assoc.
Qed.

(** On a URL without a query of its own the encoded query lists the ids in
    the order given, then the page and the page size. *)
Lemma GetDeployments_query_pairs (IDs : list string) :
  Values_pairs (GetDeployments_query [] IDs) =
  (map (fun id => ("id=" ++ url_QueryEscape id)%string) IDs ++
   ["page=1"; ("per_page=" ++ url_QueryEscape (strconv_Itoa (length IDs)))%string])%list.
Proof.
  unfold GetDeployments_query.
  destruct IDs as [|id IDs]; [reflexivity|].
  cbn [fold_left Values_Add String.eqb Ascii.eqb Bool.eqb].
  rewrite Add_ids_last by discriminate.
  unfold Values_pairs. 
  change (Values_keys [("page", ["1"]); ("per_page", [strconv_Itoa (length (id :: IDs))]);
                       ("id", ([id] ++ IDs)%list)])
    with ["id"; "page"; "per_page"].
  cbn [flat_map Values_get String.eqb Ascii.eqb Bool.eqb app map].
  reflexivity.
Qed.

(** The decimal numerals up to the page-size ceiling need no escaping. *)
Lemma QueryEscape_Itoa (n : nat) :
  n <= maxPerPage -> url_QueryEscape (strconv_Itoa n) = strconv_Itoa n.
Proof.
  intros Hn.
  assert (H : forallb (fun n => String.eqb (url_QueryEscape (strconv_Itoa n)) (strconv_Itoa n))
                (seq 0 (S maxPerPage)) = true) by (vm_compute; reflexivity).
  rewrite forallb_forall in H.
  apply String.eqb_eq, H, in_seq. lia.
Qed.

Section Properties.

Context {DeviceDeployment : Type} {ParsedURL : Type}.
Variable W : @World DeviceDeployment ParsedURL.
Variable c : client.
Variable ctx : Context.
Variable tenantID : string.


(** Runs a call whose URL parses, whose ID count passes and whose request
    the world answers as the hypotheses [Hu], [Hm] and [Hdo] say. *)
Ltac answered_call Hu Hm Hdo :=
  unfold op_url, too_many, op_request, op_query, GetDeployments_url,
    GetLatestFinishedDeployment_url, GetDeployments_query in *;
  run_client;
  rewrite Hu; try rewrite Hm;
  cbn [trace deferred fst snd app req_ctx Method req_URL parsed];
  rewrite Hdo;
  cbn [trace deferred fst snd app req_ctx Method req_URL parsed].

(** C4.  On a 200 whose body decodes to a non-empty array,
    [GetDeployments] returns the decoded sequence as it is and
    [GetLatestFinishedDeployment] returns its first element.  The upstream
    response is the world's answer to the request the operation builds
    from its parsed URL. *)
Theorem ok_response_is_passed_through (op : operation) (u : URL)
  (rsp : Response) (d : ptr DeviceDeployment) (ds : list (ptr DeviceDeployment)) :
  url_Parse W (op_url W c tenantID op) = inr u ->
  too_many op = false ->
  Do W (op_request W ctx u op) = inr rsp ->
  StatusCode rsp = StatusOK ->
  Decode W (Body rsp) = inr (Some (d :: ds)) ->
  fst (invoke W c ctx tenantID op) =
  (match op with
   | OpGetDeployments _ => Deployments (Some (d :: ds))
   | OpGetLatestFinishedDeployment _ => Deployment d
   end, None).
Proof.
  intros Hu Hm Hdo Hs Hd.
  destruct op; answered_call Hu Hm Hdo;
    rewrite Hs; cbn [Z.eqb StatusOK StatusNotFound Pos.eqb negb];
    rewrite Hd; reflexivity.
Qed.

(** C5.  On a status that is neither 200 nor 404 both operations return the
    nil result and an error whose message holds the method, the URL and the
    status; the message is logged after the round trip and before the body
    is closed and the call returns.  The upstream response is the world's
    answer to the request the operation builds from its parsed URL. *)
Theorem other_status_is_a_logged_error (op : operation) (u : URL)
  (rsp : Response) :
  url_Parse W (op_url W c tenantID op) = inr u ->
  too_many op = false ->
  Do W (op_request W ctx u op) = inr rsp ->
  StatusCode rsp <> StatusOK ->
  StatusCode rsp <> StatusNotFound ->
  exists err : error,
    fst (invoke W c ctx tenantID op) = (nil_result op, Some err) /\
    Method (op_request W ctx u op) = MethodGet /\
    Contains (Error err) (Method (op_request W ctx u op)) /\
    Contains (Error err) (URL_String W (req_URL (op_request W ctx u op))) /\
    Contains (Error err) (Status rsp) /\
    snd (invoke W c ctx tenantID op) =
    [EvDo (op_request W ctx u op); EvErrorf (Error err); EvClose (Body rsp); EvCancel].
Proof.
  intros Hu Hm Hdo Hok Hnf.
  apply Z.eqb_neq in Hok, Hnf.
  destruct op; answered_call Hu Hm Hdo;
    rewrite Hnf, Hok; cbn [negb trace deferred fst snd app];
    (eexists; split; [reflexivity|]; split; [reflexivity|];
     cbn [Error errors_New Method req_URL];
     repeat split; auto 6 with contains).
Qed.

(** C7.  The deadline of the request either operation sends is the
    earlier of the caller's deadline and now + 10 seconds: a sooner caller
    deadline is kept, and without a caller deadline it is now + 10 seconds. *)
Theorem request_deadline_is_the_earlier (op : operation) (req : Request) :
  In (EvDo req) (snd (invoke W c ctx tenantID op)) ->
  Deadline (req_ctx req) =
  Some (match Deadline ctx with
        | Some d => Z.min d (Now W + 10 * Second)
        | None => Now W + 10 * Second
        end)%Z.
Proof.
  assert (Hd : Deadline (context_WithTimeout (Now W) ctx defaultTimeout) =
               Some (match Deadline ctx with
                     | Some d => Z.min d (Now W + 10 * Second)
                     | None => Now W + 10 * Second
                     end)%Z).
  { unfold context_WithTimeout, context_WithDeadline, defaultTimeout.
    destruct (Deadline ctx) as [d|] eqn:E; [|reflexivity].
    destruct (d <? Now W + 10 * Second)%Z eqn:Elt.
    - apply Z.ltb_lt in Elt. rewrite E. f_equal. lia.
    - apply Z.ltb_ge in Elt. cbn [Deadline]. f_equal. lia. }
  destruct op; choices; intros Hin; only_request; exact Hd.
Qed.

(** C8.  Whenever a response was obtained, its body is closed before the
    operation returns, whatever the status and whether or not the body
    decodes: the trace ends with the close of that body and the cancel, and
    no other close happens. *)
Theorem response_body_is_closed (op : operation) (req : Request) (rsp : Response) :
  In (EvDo req) (snd (invoke W c ctx tenantID op)) ->
  Do W req = inr rsp ->
  exists t : list event,
    snd (invoke W c ctx tenantID op) =
    (EvDo req :: t ++ [EvClose (Body rsp); EvCancel])%list /\
    forall body, ~ In (EvClose body) t.
Proof.
  destruct op; choices; intros Hin Hdo; only_request;
    first [ exists []; split; [reflexivity | intros ? []]
          | eexists [_]; split; [reflexivity | intros ? [H|[]]; discriminate H] ].
Qed.

(** C9.  Whatever the input and the upstream do, a non-nil error comes with
    the nil result, and [GetDeployments] with a nil error returns either the
    nil slice or a non-empty one. *)
Theorem error_excludes_result (op : operation) :
  match fst (invoke W c ctx tenantID op) with
  | (r, Some _) => r = nil_result op
  | (Deployments devDevs, None) => devDevs = None \/ 0 < len devDevs
  | (Deployment _, None) => True
  end.
Proof.
  destruct op; choices; auto; right; cbn [len length]; lia.
Qed.

(** C10.  With more than 100 IDs, [GetDeployments] builds the request
    first: when that fails the error is the request-build error, not the
    validation error; when it succeeds the validation error is returned.
    Either way nothing is sent: the only effect is the deferred cancel. *)
Theorem request_is_built_before_the_count_check (IDs : list string) :
  maxPerPage < length IDs ->
  GetDeployments W c ctx tenantID IDs =
  match url_Parse W (GetDeployments_url W c tenantID) with
  | inl err => (None, Some (errors_Wrap err "failed to create request"), [EvCancel])
  | inr _ => (None, Some (errors_New "too many IDs"), [EvCancel])
  end /\
  forall err, errors_Wrap err "failed to create request" <> errors_New "too many IDs".
Proof.
  intros Hn. apply Nat.ltb_lt in Hn.
  split; [|discriminate].
  unfold GetDeployments_url. run_client.
  destruct (url_Parse W _); [reflexivity|].
  rewrite Hn. reflexivity.
Qed.

(** C2, as the code has it.  With more than 100 IDs [GetDeployments]
    fails with a nil result and never calls [Do]; the error is the
    validation error whenever the request object could be built, and the
    request-build error otherwise. *)
Theorem too_many_IDs_sends_nothing (IDs : list string) :
  maxPerPage < length IDs ->
  (forall req, ~ In (EvDo req) (snd (GetDeployments W c ctx tenantID IDs))) /\
  fst (fst (GetDeployments W c ctx tenantID IDs)) = None /\
  snd (fst (GetDeployments W c ctx tenantID IDs)) =
  Some (match url_Parse W (GetDeployments_url W c tenantID) with
        | inl err => errors_Wrap err "failed to create request"
        | inr _ => errors_New "too many IDs"
        end).
Proof.
  intros Hn. apply Nat.ltb_lt in Hn.
  unfold GetDeployments_url. run_client.
  destruct (url_Parse W _); [|rewrite Hn]; cbn [fst snd app];
    (split; [intros req [H|[]]; discriminate H | split; reflexivity]).
Qed.

(** C3, as the code has it.  With at most 100 IDs and a URL that parses,
    [GetDeployments] calls [Do] exactly once, with a GET request whose
    query is the encoding of the URL's own query to which page=1,
    per_page=N and the ids, in the order given and with repetitions, were
    added; on a URL without a query of its own the query string is the ids
    in order followed by page=1 and per_page=N. *)
Theorem at_most_100_IDs_send_one_request (IDs : list string) (u : URL) :
  length IDs <= maxPerPage ->
  url_Parse W (GetDeployments_url W c tenantID) = inr u ->
  exists req : Request,
    requests (snd (GetDeployments W c ctx tenantID IDs)) = [req] /\
    Method req = MethodGet /\
    parsed (req_URL req) = parsed u /\
    let q := GetDeployments_query (URL_Query W u) IDs in
    RawQuery (req_URL req) = Values_Encode q /\
    Values_get q "page" = (Values_get (URL_Query W u) "page" ++ ["1"])%list /\
    Values_get q "per_page" =
      (Values_get (URL_Query W u) "per_page" ++ [strconv_Itoa (length IDs)])%list /\
    Values_get q "id" = (Values_get (URL_Query W u) "id" ++ IDs)%list /\
    (URL_Query W u = [] ->
     RawQuery (req_URL req) =
     String.concat "&"
       (map (fun id => ("id=" ++ url_QueryEscape id)%string) IDs ++
        ["page=1"; ("per_page=" ++ strconv_Itoa (length IDs))%string])%list).
Proof.
  intros Hn Hu.
  assert (Hc : (maxPerPage <? length IDs)%nat = false) by (apply Nat.ltb_ge; exact Hn).
  unfold GetDeployments_url in Hu.
  eexists. split.
  { run_client. rewrite Hu, Hc.
    cbn [trace deferred fst snd app req_ctx Method req_URL parsed].
    destruct (Do W _) as [e|rsp]; [reflexivity|].
    repeat next_choice; reflexivity. }
  cbn [Method req_URL parsed RawQuery].
  split; [reflexivity|]. split; [reflexivity|].
  cbv zeta. split; [reflexivity|].
  destruct (GetDeployments_query_get (URL_Query W u) IDs) as (Hp & Hpp & Hid).
  repeat split; try assumption.
  intros Hq. fold (GetDeployments_query (URL_Query W u) IDs). rewrite Hq.
  unfold Values_Encode. rewrite GetDeployments_query_pairs, QueryEscape_Itoa by exact Hn.
  reflexivity.
Qed.

End Properties.

(** * The test double at work *)


(** C4 at a 200 answer with three records: the lookup by IDs returns all
    three, in the order received, and the lookup of the latest finished
    deployment returns the first. *)
Lemma ok_response_is_passed_through_witness :
  fst (invoke (Mock.world 0 (Mock.reply 200 "200 OK" "[7,3,7]")) Mock.c Mock.background
         "acme" (OpGetDeployments ["a"; "b"; "a"])) =
  (Deployments (Some [Some 7; Some 3; Some 7]), None) /\
  fst (invoke (Mock.world 0 (Mock.reply 200 "200 OK" "[7,3,7]")) Mock.c Mock.background
         "acme" (OpGetLatestFinishedDeployment "dev1")) =
  (Deployment (Some 7), None).
Proof.
  split.
  - apply (ok_response_is_passed_through
             (Mock.world 0 (Mock.reply 200 "200 OK" "[7,3,7]")) Mock.c Mock.background
             "acme" (OpGetDeployments ["a"; "b"; "a"])
             (mkURL "http://localhost:8080/api/internal/v1/deployments/tenants/acme/deployments/devices" "")
             (mkResponse 200 "200 OK" "[7,3,7]") (Some 7) [Some 3; Some 7]);
      reflexivity.
  - apply (ok_response_is_passed_through
             (Mock.world 0 (Mock.reply 200 "200 OK" "[7,3,7]")) Mock.c Mock.background
             "acme" (OpGetLatestFinishedDeployment "dev1")
             (mkURL "http://localhost:8080/api/internal/v1/deployments/tenants/acme/deployments/devices/dev1" "")
             (mkResponse 200 "200 OK" "[7,3,7]") (Some 7) [Some 3; Some 7]);
      reflexivity.
Defined.

(** C5 at a 500 answer, to the lookup by IDs and to the lookup of the
    latest finished deployment. *)
Lemma other_status_is_a_logged_error_witness :
  (exists err : error,
     invoke (Mock.world 0 (Mock.reply 500 "500 Internal Server Error" ""))
       Mock.c Mock.background "acme" (OpGetDeployments ["a"]) =
     (Deployments None, Some err,
      [EvDo (mkRequest (mkContext (Some (10 * Second)%Z)) "GET"
               (mkURL "http://localhost:8080/api/internal/v1/deployments/tenants/acme/deployments/devices"
                  "id=a&page=1&per_page=1"));
       EvErrorf (Error err); EvClose ""; EvCancel]) /\
     Contains (Error err) "500 Internal Server Error") /\
  (exists err : error,
     invoke (Mock.world 0 (Mock.reply 500 "500 Internal Server Error" ""))
       Mock.c Mock.background "acme" (OpGetLatestFinishedDeployment "dev1") =
     (Deployment None, Some err,
      [EvDo (mkRequest (mkContext (Some (10 * Second)%Z)) "GET"
               (mkURL "http://localhost:8080/api/internal/v1/deployments/tenants/acme/deployments/devices/dev1"
                  "page=1&per_page=1"));
       EvErrorf (Error err); EvClose ""; EvCancel]) /\
     Contains (Error err) "500 Internal Server Error").
Proof.
  split.
  - destruct (other_status_is_a_logged_error
                (Mock.world 0 (Mock.reply 500 "500 Internal Server Error" ""))
                Mock.c Mock.background "acme" (OpGetDeployments ["a"])
                (mkURL "http://localhost:8080/api/internal/v1/deployments/tenants/acme/deployments/devices" "")
                (mkResponse 500 "500 Internal Server Error" ""))
      as (err & Hres & _ & _ & _ & Hstatus & Htrace).
    + reflexivity.
    + reflexivity.
    + reflexivity.
    + vm_compute. discriminate.
    + vm_compute. discriminate.
    + exists err. split; [|exact Hstatus].
      rewrite (surjective_pairing (invoke _ _ _ _ _)), Hres, Htrace. reflexivity.
  - destruct (other_status_is_a_logged_error
                (Mock.world 0 (Mock.reply 500 "500 Internal Server Error" ""))
                Mock.c Mock.background "acme" (OpGetLatestFinishedDeployment "dev1")
                (mkURL "http://localhost:8080/api/internal/v1/deployments/tenants/acme/deployments/devices/dev1" "")
                (mkResponse 500 "500 Internal Server Error" ""))
      as (err & Hres & _ & _ & _ & Hstatus & Htrace).
    + reflexivity.
    + reflexivity.
    + reflexivity.
    + vm_compute. discriminate.
    + vm_compute. discriminate.
    + exists err. split; [|exact Hstatus].
      rewrite (surjective_pairing (invoke _ _ _ _ _)), Hres, Htrace. reflexivity.
Defined.

(** C7 with a caller whose deadline, 3 seconds, is sooner than now + 10
    seconds: the request keeps the caller's deadline. *)
Lemma request_deadline_is_the_earlier_witness :
  exists req : Request,
    In (EvDo req)
      (snd (invoke (Mock.world 0 (Mock.reply 404 "404 Not Found" "")) Mock.c
              (mkContext (Some (3 * Second)%Z)) "acme" (OpGetDeployments []))) /\
    Deadline (req_ctx req) = Some (3 * Second)%Z.
Proof.
  eexists. split.
  - vm_compute. left. reflexivity.
  - apply (request_deadline_is_the_earlier
             (Mock.world 0 (Mock.reply 404 "404 Not Found" "")) Mock.c
             (mkContext (Some (3 * Second)%Z)) "acme" (OpGetDeployments [])).
    vm_compute. left. reflexivity.
Defined.

(** C8 at a 200 answer whose body is not JSON: the body is still closed. *)
Lemma response_body_is_closed_witness :
  exists req t,
    snd (invoke (Mock.world 0 (Mock.reply 200 "200 OK" "<html>")) Mock.c Mock.background
           "acme" (OpGetDeployments ["a"])) =
    (EvDo req :: t ++ [EvClose "<html>"; EvCancel])%list.
Proof.
  destruct (response_body_is_closed
              (Mock.world 0 (Mock.reply 200 "200 OK" "<html>")) Mock.c Mock.background
              "acme" (OpGetDeployments ["a"])
              (mkRequest (mkContext (Some 10000000000%Z)) "GET"
                 (mkURL "http://localhost:8080/api/internal/v1/deployments/tenants/acme/deployments/devices"
                    "id=a&page=1&per_page=1"))
              (mkResponse 200 "200 OK" "<html>"))
    as (t & Ht & _).
  - vm_compute. left. reflexivity.
  - reflexivity.
  - eexists; exists t. exact Ht.
Defined.

(** C10 at 101 IDs and a URL that does not parse: the request-build error
    wins over the validation error. *)
Lemma request_is_built_before_the_count_check_witness :
  GetDeployments (Mock.world 0 (Mock.reply 200 "200 OK" "[]")) Mock.c Mock.background
    Mock.bad_tenantID (repeat "x" 101) =
  (None,
   Some (errors_Wrap (libError "net/url: invalid control character in URL")
           "failed to create request"),
   [EvCancel]).
Proof.
  apply (request_is_built_before_the_count_check
           (Mock.world 0 (Mock.reply 200 "200 OK" "[]")) Mock.c Mock.background
           Mock.bad_tenantID (repeat "x" 101)).
  vm_compute. lia.
Defined.

(** C2 as stated fails: 101 IDs and a tenant ID that makes the URL
    unparsable give the request-build error, not the validation error. *)
Lemma too_many_IDs_not_always_validation_error :
  maxPerPage < length (repeat "x" 101) /\
  snd (fst (GetDeployments (Mock.world 0 (Mock.reply 200 "200 OK" "[]")) Mock.c
              Mock.background Mock.bad_tenantID (repeat "x" 101))) =
  Some (errors_Wrap (libError "net/url: invalid control character in URL")
          "failed to create request") /\
  snd (fst (GetDeployments (Mock.world 0 (Mock.reply 200 "200 OK" "[]")) Mock.c
              Mock.background Mock.bad_tenantID (repeat "x" 101))) <>
  Some (errors_New "too many IDs").
Proof.
  split; [vm_compute; lia|]. split; [reflexivity | vm_compute; discriminate].
Qed.

(** C2, amended, at 101 IDs and a tenant whose URL parses. *)
Lemma too_many_IDs_sends_nothing_witness :
  snd (fst (GetDeployments (Mock.world 0 (Mock.reply 200 "200 OK" "[]")) Mock.c
              Mock.background "acme" (repeat "x" 101))) =
  Some (errors_New "too many IDs").
Proof.
  apply (too_many_IDs_sends_nothing
           (Mock.world 0 (Mock.reply 200 "200 OK" "[]")) Mock.c Mock.background
           "acme" (repeat "x" 101)).
  vm_compute. lia.
Defined.

(** C3 as stated fails: with one ID and a tenant ID that makes the URL
    unparsable no request is sent at all. *)
Lemma at_most_100_IDs_may_send_nothing :
  length ["a"] <= maxPerPage /\
  requests (snd (GetDeployments (Mock.world 0 (Mock.reply 200 "200 OK" "[]")) Mock.c
                   Mock.background Mock.bad_tenantID ["a"])) = [].
Proof.
  split; [vm_compute; lia | reflexivity].
Qed.

(** C3, amended, at three IDs, one of them twice. *)
Lemma at_most_100_IDs_send_one_request_witness :
  exists req : Request,
    requests (snd (GetDeployments (Mock.world 0 (Mock.reply 200 "200 OK" "[]")) Mock.c
                     Mock.background "acme" ["a"; "b c"; "a"])) = [req] /\
    RawQuery (req_URL req) = "id=a&id=b+c&id=a&page=1&per_page=3".
Proof.
  destruct (at_most_100_IDs_send_one_request
              (Mock.world 0 (Mock.reply 200 "200 OK" "[]")) Mock.c Mock.background
              "acme" ["a"; "b c"; "a"]
              (mkURL "http://localhost:8080/api/internal/v1/deployments/tenants/acme/deployments/devices" ""))
    as (req & Hreq & _ & _ & _ & _ & _ & _ & Hq).
  - vm_compute. lia.
  - reflexivity.
  - exists req. split; [exact Hreq | exact (Hq eq_refl)].
Defined.

(** C6 breaks on a tenant ID that contains [:id]: the second replacement
    puts the device ID into the tenant segment and leaves [:id] in the
    device segment, so the request does not go to the device's URL. *)
Theorem device_ID_lands_in_the_tenant_segment :
  let W := Mock.world 0 (Mock.reply 404 "404 Not Found" "") in
  GetLatestFinishedDeployment_url W Mock.c "acme:id" "dev1" =
    "http://localhost:8080/api/internal/v1/deployments/tenants/acmedev1/deployments/devices/:id" /\
  Mock.JoinURL (urlBase Mock.c)
    "/api/internal/v1/deployments/tenants/acme:id/deployments/devices/dev1" =
    "http://localhost:8080/api/internal/v1/deployments/tenants/acme:id/deployments/devices/dev1" /\
  requests (snd (GetLatestFinishedDeployment W Mock.c Mock.background "acme:id" "dev1")) =
    [mkRequest (mkContext (Some (10 * Second)%Z)) "GET"
       (mkURL "http://localhost:8080/api/internal/v1/deployments/tenants/acmedev1/deployments/devices/:id"
          "page=1&per_page=1")].
Proof.
  cbv zeta. repeat split; reflexivity.
Qed.

(** * Further properties of the two operations *)

Lemma string_length_app (a b : string) :
  String.length (a ++ b) = String.length a + String.length b.
Proof. induction a as [|x a IH]; simpl; [reflexivity | now rewrite IH]. Qed.

Lemma substring_whole (s : string) : substring 0 (String.length s) s = s.
Proof. induction s as [|x s IH]; simpl; [reflexivity | now rewrite IH]. Qed.

Lemma substring_prefix (a b : string) : substring 0 (String.length a) (a ++ b) = a.
Proof. induction a as [|x a IH]; simpl; [now destruct b | now rewrite IH]. Qed.

Lemma substring_skip (a b : string) (m : nat) :
  substring (String.length a) m (a ++ b) = substring 0 m b.
Proof. induction a as [|x a IH]; simpl; [reflexivity | exact IH]. Qed.

(** One replacement at the first occurrence of [old]. *)
Lemma Replace_first (pre old post new : string) :
  index 0 old (pre ++ old ++ post) = Some (String.length pre) ->
  strings_Replace (pre ++ old ++ post) old new 1 = pre ++ new ++ post.
Proof.
  intros H. cbn [strings_Replace]. rewrite H.
  rewrite substring_prefix. f_equal. f_equal.
  rewrite <- string_length_app, <- string_app_assoc, substring_skip.
  rewrite string_length_app.
  replace (String.length (pre ++ old) + String.length post - String.length (pre ++ old))
    with (String.length post) by lia.
  apply substring_whole.
Qed.

Lemma count_byte_app (b : ascii) (s t : string) :
  count_byte b (s ++ t) = count_byte b s + count_byte b t.
Proof. induction s as [|x s IH]; simpl; [reflexivity | rewrite IH; lia]. Qed.

Lemma hexdigit_isAlnum (n : nat) : isAlnum (hexdigit n) = true.
Proof.
  unfold hexdigit.
  do 16 (destruct n as [|n]; [reflexivity|]). destruct n; reflexivity.
Qed.

Lemma unescaped_differs (x b : ascii) :
  shouldEscape x = false -> shouldEscape b = true -> Ascii.eqb x b = false.
Proof.
  intros Hx Hb. destruct (Ascii.eqb x b) eqn:E; [|reflexivity].
  apply Ascii.eqb_eq in E. congruence.
Qed.

(** A byte that [QueryEscape] escapes, other than the two it writes
    itself, does not occur in escaped text. *)
Lemma QueryEscape_keeps_out (b : ascii) (s : string) :
  shouldEscape b = true -> b <> "+"%char -> b <> "%"%char ->
  count_byte b (url_QueryEscape s) = 0.
Proof.
  intros Hb Hplus Hpercent.
  assert (Hhex : forall n, Ascii.eqb (hexdigit n) b = false).
  { intros n. apply unescaped_differs; [|exact Hb].
    unfold shouldEscape. now rewrite hexdigit_isAlnum. }
  induction s as [|x s IH]; [reflexivity|].
  cbn [url_QueryEscape].
  destruct (Ascii.eqb x " ").
  - cbn [count_byte]. rewrite IH.
    destruct (Ascii.eqb "+" b) eqn:E; [apply Ascii.eqb_eq in E; congruence | reflexivity].
  - destruct (shouldEscape x) eqn:Ex.
    + cbn [count_byte]. rewrite !Hhex, IH.
      destruct (Ascii.eqb "%" b) eqn:E; [apply Ascii.eqb_eq in E; congruence | reflexivity].
    + cbn [count_byte]. rewrite IH, (unescaped_differs x b Ex Hb). reflexivity.
Qed.

Lemma list_sum_cons (x : nat) (l : list nat) : list_sum (x :: l) = x + list_sum l.
Proof. reflexivity. Qed.

Lemma count_byte_concat (b : ascii) (sep : string) (l : list string) :
  count_byte b (String.concat sep l) =
  list_sum (map (count_byte b) l) + (length l - 1) * count_byte b sep.
Proof.
  induction l as [|x [|y l] IH].
  - reflexivity.
  - cbn. lia.
  - change (String.concat sep (x :: y :: l)) with (x ++ sep ++ String.concat sep (y :: l)).
    rewrite !count_byte_app, IH.
    cbn [map length Nat.sub Nat.mul]. rewrite !list_sum_cons, ?Nat.sub_0_r. lia.
Qed.

(** The separators of the query of [GetDeployments] on a URL without a
    query of its own: one ampersand between any two parameters, one equals
    sign in each, whatever bytes the IDs hold. *)
Lemma GetDeployments_query_separators (IDs : list string) :
  count_byte "&" (Values_Encode (GetDeployments_query [] IDs)) = length IDs + 1 /\
  count_byte "=" (Values_Encode (GetDeployments_query [] IDs)) = length IDs + 2.
Proof.
  unfold Values_Encode. rewrite GetDeployments_query_pairs, !count_byte_concat.
  rewrite !map_app, !list_sum_app, !length_app, !length_map, !map_map.
  assert (Hamp : forall l,
             list_sum (map (fun id => count_byte "&" ("id=" ++ url_QueryEscape id)) l) = 0).
  { induction l as [|x l IH]; [reflexivity|]. cbn [map].
    rewrite list_sum_cons, IH, count_byte_app, QueryEscape_keeps_out
      by (reflexivity || discriminate).
    reflexivity. }
  assert (Heq : forall l,
             list_sum (map (fun id => count_byte "=" ("id=" ++ url_QueryEscape id)) l) =
             length l).
  { induction l as [|x l IH]; [reflexivity|]. cbn [map length].
    rewrite list_sum_cons, IH, count_byte_app, QueryEscape_keeps_out
      by (reflexivity || discriminate).
    reflexivity. }
  rewrite Hamp, Heq. cbn [map length].
  rewrite !list_sum_cons, !count_byte_app, !QueryEscape_keeps_out
    by (reflexivity || discriminate).
  cbn. lia.
Qed.

Section MoreProperties.

Context {DeviceDeployment : Type} {ParsedURL : Type}.
Variable W : @World DeviceDeployment ParsedURL.
Variable c : client.
Variable ctx : Context.
Variable tenantID : string.

(** X1.  Which request a call sends: none when the URL does not parse or,
    for [GetDeployments], when there are more than 100 IDs; otherwise
    exactly one, a GET under the derived context, to the parsed URL with
    the operation's query encoded into it.  There is no second attempt. *)
Theorem requests_of_a_call (op : operation) :
  requests (snd (invoke W c ctx tenantID op)) =
  match url_Parse W (op_url W c tenantID op) with
  | inl _ => []
  | inr u => if too_many op then [] else [op_request W ctx u op]
  end.
Proof.
  unfold op_url, op_request, op_query, too_many, GetDeployments_url,
    GetLatestFinishedDeployment_url, GetDeployments_query.
  destruct op; choices; reflexivity.
Qed.

(** X2.  When the URL does not parse, either operation returns the nil
    result and the parser's error wrapped as a request-build error, and
    does nothing but cancel the derived context. *)
Theorem request_build_failure (op : operation) (cause : error) :
  url_Parse W (op_url W c tenantID op) = inl cause ->
  invoke W c ctx tenantID op =
  (nil_result op, Some (errors_Wrap cause "failed to create request"), [EvCancel]).
Proof.
  unfold op_url, GetDeployments_url, GetLatestFinishedDeployment_url.
  intros H. destruct op; run_client; rewrite H; reflexivity.
Qed.



(** X5.  On every path of either operation the derived context is
    cancelled exactly once, as the last thing the call does. *)
Theorem cancel_runs_last (op : operation) :
  exists t : list event,
    snd (invoke W c ctx tenantID op) = (t ++ [EvCancel])%list /\ ~ In EvCancel t.
Proof.
  destruct op; choices;
    match goal with
    | |- exists t, ?l = _ /\ _ =>
        exists (removelast l); split;
        [reflexivity | cbn; intuition discriminate]
    end.
Qed.

(** X6.  A record is logged exactly when a response came back with a
    status other than 200 and 404; then it is the one record of the call
    and it carries the message of the returned error. *)
Theorem logged_only_on_a_failure_status (op : operation) :
  match logged (snd (invoke W c ctx tenantID op)) with
  | [] =>
      forall req rsp,
        In (EvDo req) (snd (invoke W c ctx tenantID op)) ->
        Do W req = inr rsp ->
        StatusCode rsp = StatusOK \/ StatusCode rsp = StatusNotFound
  | [msg] =>
      exists req rsp err,
        In (EvDo req) (snd (invoke W c ctx tenantID op)) /\
        Do W req = inr rsp /\
        StatusCode rsp <> StatusOK /\ StatusCode rsp <> StatusNotFound /\
        snd (fst (invoke W c ctx tenantID op)) = Some err /\ msg = Error err
  | _ => False
  end.
Proof.
  destruct op; choices; cbn [logged];
    try (intros req rsp Hin Hdo; only_request; status_tests; auto; fail);
    (eexists; eexists; eexists; split; [left; reflexivity|];
     split; [eassumption|]; status_tests; repeat split; auto).
Qed.

(** X7.  [GetLatestFinishedDeployment] puts the device ID into the path
    only: to the query of the parsed URL it adds page=1 and per_page=1 and
    nothing else, and on a URL without a query of its own the query string
    is page=1&per_page=1 whatever the tenant and the device. *)
Theorem latest_asks_for_one_record (deviceID : string) (u : URL) :
  url_Parse W (GetLatestFinishedDeployment_url W c tenantID deviceID) = inr u ->
  exists req : Request,
    requests (snd (GetLatestFinishedDeployment W c ctx tenantID deviceID)) = [req] /\
    Method req = MethodGet /\
    parsed (req_URL req) = parsed u /\
    let q := op_query (URL_Query W u) (OpGetLatestFinishedDeployment deviceID) in
    RawQuery (req_URL req) = Values_Encode q /\
    Values_get q "page" = (Values_get (URL_Query W u) "page" ++ ["1"])%list /\
    Values_get q "per_page" = (Values_get (URL_Query W u) "per_page" ++ ["1"])%list /\
    (forall k, k <> "page" -> k <> "per_page" ->
               Values_get q k = Values_get (URL_Query W u) k) /\
    (URL_Query W u = [] -> RawQuery (req_URL req) = "page=1&per_page=1").
Proof.
  unfold GetLatestFinishedDeployment_url. intros Hu.
  eexists. split.
  { run_client. rewrite Hu.
    cbn [trace deferred fst snd app req_ctx Method req_URL parsed].
    destruct (Do W _) as [e|rsp]; [reflexivity|].
    repeat next_choice; reflexivity. }
  cbn [Method req_URL parsed RawQuery op_query].
  split; [reflexivity|]. split; [reflexivity|]. cbv zeta.
  split; [reflexivity|].
  rewrite !Values_get_Add. cbn [String.eqb Ascii.eqb Bool.eqb].
  split; [reflexivity|]. split; [reflexivity|]. split.
  - intros k Hp Hpp. rewrite !Values_get_Add.
    apply String.eqb_neq in Hp, Hpp. now rewrite Hp, Hpp.
  - intros ->. reflexivity.
Qed.

(** X8.  Every error either operation returns is of one of five kinds: it
    wraps the URL parser's error as a request-build error, it is the
    validation error (for [GetDeployments] only), it wraps the transport's
    error with the method and URL, it names the method, URL and status of a
    response that is neither 200 nor 404, or it wraps the decoder's error. *)
Theorem errors_are_of_five_kinds (op : operation) (err : error) :
  snd (fst (invoke W c ctx tenantID op)) = Some err ->
  (exists cause, url_Parse W (op_url W c tenantID op) = inl cause /\
                 err = errors_Wrap cause "failed to create request") \/
  (too_many op = true /\ err = errors_New "too many IDs") \/
  (exists req cause, Do W req = inl cause /\
     err = errors_Wrap cause
             ("failed to submit " ++ Method req ++ " " ++ URL_String W (req_URL req))) \/
  (exists req rsp, Do W req = inr rsp /\
     StatusCode rsp <> StatusOK /\ StatusCode rsp <> StatusNotFound /\
     err = errors_New (Method req ++ " " ++ URL_String W (req_URL req) ++
                       " request failed with status " ++ Status rsp)) \/
  (exists req rsp cause, Do W req = inr rsp /\ StatusCode rsp = StatusOK /\
     Decode W (Body rsp) = inl cause /\
     err = errors_Wrap cause "failed to parse request body").
Proof.
  unfold op_url, too_many, GetDeployments_url, GetLatestFinishedDeployment_url.
  destruct op; choices; intros [= <-] || intros [=]; status_tests.
  all: try (left; eexists; split; [reflexivity|reflexivity]).
  all: try (right; left; split; reflexivity).
  all: try (right; right; left; eexists; eexists; split; [eassumption|reflexivity]).
  all: try (right; right; right; left; eexists; eexists;
            split; [eassumption|]; repeat split; auto; fail).
  all: right; right; right; right; eexists; eexists; eexists;
       split; [eassumption|]; repeat split; auto.
Qed.






(** X11.  The body is decoded on a 200 only: when no response with status
    200 is obtained, the call does the same whatever the decoder is. *)
Theorem body_is_decoded_only_on_200 (op : operation)
  (decode : string -> error + slice (ptr DeviceDeployment)) :
  (forall req rsp, In (EvDo req) (snd (invoke W c ctx tenantID op)) ->
                   Do W req = inr rsp -> StatusCode rsp <> StatusOK) ->
  invoke (with_Decode W decode) c ctx tenantID op = invoke W c ctx tenantID op.
Proof.
  unfold with_Decode. destruct op; run_client;
    cbn [JoinURL url_Parse url_ParseQuery URL_String Now Do Decode];
    unfold URL_Query; cbn [url_ParseQuery].
  all: repeat match goal with
       | |- context [match url_Parse W ?u with _ => _ end] =>
           destruct (url_Parse W u)
       | |- context [if (maxPerPage <? ?n)%nat then _ else _] =>
           destruct (maxPerPage <? n)%nat
       | |- context [match Do W ?r with _ => _ end] =>
           let E := fresh "Edo" in destruct (Do W r) eqn:E
       | |- context [if (StatusCode ?r =? StatusNotFound)%Z then _ else _] =>
           destruct (StatusCode r =? StatusNotFound)%Z
       | |- context [if negb (StatusCode ?r =? StatusOK)%Z then _ else _] =>
           let E := fresh "Eok" in destruct (StatusCode r =? StatusOK)%Z eqn:E
       end;
       cbn [trace deferred fst snd app negb req_ctx Method req_URL parsed]; try reflexivity.
  all: cbn [req_ctx Method req_URL parsed] in Edo; apply Z.eqb_eq in Eok.
  all: match goal with
       | |- context [Decode W ?b] => destruct (Decode W b) as [?|[[|? ?]|]]
       end;
       cbn [trace deferred fst snd app len length Nat.eqb];
       intros H; exfalso; exact (H _ _ (or_introl eq_refl) Edo Eok).
Qed.

(** X12.  When the first [:tid] of the joined URL is the template's,
    [GetDeployments] asks for the joined URL with the tenant ID in its
    place. *)
Theorem GetDeployments_url_holds_the_tenant (pre : string) :
  JoinURL W (urlBase c) urlDeviceDeployments = pre ++ ":tid" ++ "/deployments/devices" ->
  index 0 ":tid" (pre ++ ":tid" ++ "/deployments/devices") = Some (String.length pre) ->
  GetDeployments_url W c tenantID = pre ++ tenantID ++ "/deployments/devices".
Proof.
  intros Hj Hi. unfold GetDeployments_url. rewrite Hj.
  now apply Replace_first.
Qed.

(** X13.  When the first [:tid] of the joined URL is the template's and,
    with the tenant ID in its place, the first [:id] is the template's
    too, [GetLatestFinishedDeployment] asks for the joined URL with the
    tenant ID and the device ID in their places. *)
Theorem GetLatestFinishedDeployment_url_holds_the_IDs (pre deviceID : string) :
  JoinURL W (urlBase c) urlDeviceDeploymentsID =
    pre ++ ":tid" ++ "/deployments/devices/:id" ->
  index 0 ":tid" (pre ++ ":tid" ++ "/deployments/devices/:id") = Some (String.length pre) ->
  index 0 ":id" (pre ++ tenantID ++ "/deployments/devices/:id") =
    Some (String.length (pre ++ tenantID ++ "/deployments/devices/")) ->
  GetLatestFinishedDeployment_url W c tenantID deviceID =
  pre ++ tenantID ++ "/deployments/devices/" ++ deviceID.
Proof.
  intros Hj Hi1 Hi2. unfold GetLatestFinishedDeployment_url. rewrite Hj.
  rewrite (Replace_first pre ":tid" "/deployments/devices/:id" tenantID Hi1).
  assert (E : pre ++ tenantID ++ "/deployments/devices/:id" =
              (pre ++ tenantID ++ "/deployments/devices/") ++ ":id" ++ "").
  { rewrite !string_app_assoc. reflexivity. }
  rewrite E in Hi2 |- *.
  rewrite (Replace_first _ ":id" "" deviceID Hi2).
  rewrite !string_app_assoc, string_app_empty_r. reflexivity.
Qed.

(** X14.  When the first [:tid] of the joined URL is the template's but
    the tenant ID brings a [:id] of its own that comes first, the device
    ID is put inside the tenant ID and the device segment keeps the
    placeholder. *)
Theorem device_ID_replaces_the_first_placeholder (pre a b deviceID : string) :
  tenantID = a ++ ":id" ++ b ->
  JoinURL W (urlBase c) urlDeviceDeploymentsID =
    pre ++ ":tid" ++ "/deployments/devices/:id" ->
  index 0 ":tid" (pre ++ ":tid" ++ "/deployments/devices/:id") = Some (String.length pre) ->
  index 0 ":id" (pre ++ tenantID ++ "/deployments/devices/:id") =
    Some (String.length (pre ++ a)) ->
  GetLatestFinishedDeployment_url W c tenantID deviceID =
  pre ++ a ++ deviceID ++ b ++ "/deployments/devices/:id".
Proof.
  intros Ht Hj Hi1 Hi2. unfold GetLatestFinishedDeployment_url. rewrite Hj.
  rewrite (Replace_first pre ":tid" "/deployments/devices/:id" tenantID Hi1).
  assert (E : pre ++ tenantID ++ "/deployments/devices/:id" =
              (pre ++ a) ++ ":id" ++ (b ++ "/deployments/devices/:id")).
  { rewrite Ht, !string_app_assoc. reflexivity. }
  rewrite E in Hi2 |- *.
  rewrite (Replace_first _ ":id" _ deviceID Hi2).
  rewrite !string_app_assoc. reflexivity.
Qed.

(** X15.  On a URL without a query of its own the query string of
    [GetDeployments] has exactly N + 2 parameters whatever bytes the IDs
    hold: N + 1 ampersands and N + 2 equals signs, so no ID can add, split
    or hide a parameter. *)
Theorem IDs_cannot_change_the_parameters (IDs : list string) (u : URL) :
  length IDs <= maxPerPage ->
  url_Parse W (GetDeployments_url W c tenantID) = inr u ->
  URL_Query W u = [] ->
  exists req : Request,
    requests (snd (GetDeployments W c ctx tenantID IDs)) = [req] /\
    count_byte "&" (RawQuery (req_URL req)) = length IDs + 1 /\
    count_byte "=" (RawQuery (req_URL req)) = length IDs + 2.
Proof.
  intros Hn Hu Hq. apply Nat.ltb_ge in Hn.
  unfold GetDeployments_url in Hu.
  eexists. split.
  { run_client. rewrite Hu, Hn.
    cbn [trace deferred fst snd app req_ctx Method req_URL parsed].
    destruct (Do W _) as [e|rsp]; [reflexivity|].
    repeat next_choice; reflexivity. }
  cbn [req_URL RawQuery]. rewrite Hq.
  apply GetDeployments_query_separators.
Qed.

End MoreProperties.

(** * The test double at work, continued *)

(** X2 at the lookup of the latest deployment of a tenant whose ID holds a
    line feed. *)
Lemma request_build_failure_witness :
  invoke (Mock.world 0 (Mock.reply 200 "200 OK" "[7]")) Mock.c Mock.background
    Mock.bad_tenantID (OpGetLatestFinishedDeployment "dev1") =
  (Deployment None,
   Some (errors_Wrap (libError "net/url: invalid control character in URL")
           "failed to create request"),
   [EvCancel]).
Proof.
  apply (request_build_failure (Mock.world 0 (Mock.reply 200 "200 OK" "[7]")) Mock.c
           Mock.background Mock.bad_tenantID (OpGetLatestFinishedDeployment "dev1")).
  reflexivity.
Defined.



(** X7 at an ordinary tenant and device. *)
Lemma latest_asks_for_one_record_witness :
  exists req : Request,
    requests (snd (GetLatestFinishedDeployment (Mock.world 0 (Mock.reply 200 "200 OK" "[7]"))
                     Mock.c Mock.background "acme" "dev1")) = [req] /\
    RawQuery (req_URL req) = "page=1&per_page=1".
Proof.
  destruct (latest_asks_for_one_record
              (Mock.world 0 (Mock.reply 200 "200 OK" "[7]")) Mock.c Mock.background
              "acme" "dev1"
              (mkURL "http://localhost:8080/api/internal/v1/deployments/tenants/acme/deployments/devices/dev1" ""))
    as (req & Hreq & _ & _ & _ & _ & _ & _ & Hq).
  - reflexivity.
  - exists req. split; [exact Hreq | exact (Hq eq_refl)].
Defined.

(** X8 at 101 IDs: the validation error is of the second kind. *)
Lemma errors_are_of_five_kinds_witness :
  too_many (OpGetDeployments (repeat "x" 101)) = true /\
  snd (fst (invoke (Mock.world 0 (Mock.reply 200 "200 OK" "[7]")) Mock.c Mock.background
              "acme" (OpGetDeployments (repeat "x" 101)))) =
  Some (errors_New "too many IDs").
Proof.
  destruct (errors_are_of_five_kinds
              (Mock.world 0 (Mock.reply 200 "200 OK" "[7]")) Mock.c Mock.background
              "acme" (OpGetDeployments (repeat "x" 101)) (errors_New "too many IDs")
              eq_refl)
    as [(cause & _ & H)|[(Hmany & _)|[(req & cause & _ & H)|
        [(req & rsp & Hdo & Hok & _)|(req & rsp & cause & _ & _ & _ & H)]]]].
  - discriminate H.
  - split; [exact Hmany | reflexivity].
  - discriminate H.
  - injection Hdo as <-. exfalso. apply Hok. reflexivity.
  - discriminate H.
Defined.



(** X11 at a 404: a decoder that accepts everything changes nothing. *)
Lemma body_is_decoded_only_on_200_witness :
  invoke (with_Decode (Mock.world 0 (Mock.reply 404 "404 Not Found" "[7]"))
            (fun _ => inr (Some [Some 1])))
    Mock.c Mock.background "acme" (OpGetDeployments ["a"]) =
  invoke (Mock.world 0 (Mock.reply 404 "404 Not Found" "[7]"))
    Mock.c Mock.background "acme" (OpGetDeployments ["a"]).
Proof.
  apply (body_is_decoded_only_on_200
           (Mock.world 0 (Mock.reply 404 "404 Not Found" "[7]")) Mock.c Mock.background
           "acme" (OpGetDeployments ["a"]) (fun _ => inr (Some [Some 1]))).
  intros req rsp _ Hdo. injection Hdo as <-. vm_compute. discriminate.
Defined.

(** X12 at an ordinary base URL and tenant. *)
Lemma GetDeployments_url_holds_the_tenant_witness :
  GetDeployments_url (Mock.world 0 (Mock.reply 200 "200 OK" "[]")) Mock.c "acme" =
  "http://localhost:8080/api/internal/v1/deployments/tenants/acme/deployments/devices".
Proof.
  apply (GetDeployments_url_holds_the_tenant
           (Mock.world 0 (Mock.reply 200 "200 OK" "[]")) Mock.c "acme"
           "http://localhost:8080/api/internal/v1/deployments/tenants/").
  - reflexivity.
  - reflexivity.
Defined.

(** X13 at an ordinary base URL, tenant and device. *)
Lemma GetLatestFinishedDeployment_url_holds_the_IDs_witness :
  GetLatestFinishedDeployment_url (Mock.world 0 (Mock.reply 200 "200 OK" "[]")) Mock.c
    "acme" "dev1" =
  "http://localhost:8080/api/internal/v1/deployments/tenants/acme/deployments/devices/dev1".
Proof.
  apply (GetLatestFinishedDeployment_url_holds_the_IDs
           (Mock.world 0 (Mock.reply 200 "200 OK" "[]")) Mock.c "acme"
           "http://localhost:8080/api/internal/v1/deployments/tenants/" "dev1").
  - reflexivity.
  - reflexivity.
  - reflexivity.
Defined.

(** X14 at a tenant ID that ends in the device placeholder. *)
Lemma device_ID_replaces_the_first_placeholder_witness :
  GetLatestFinishedDeployment_url (Mock.world 0 (Mock.reply 200 "200 OK" "[]")) Mock.c
    "acme:id" "dev1" =
  "http://localhost:8080/api/internal/v1/deployments/tenants/acmedev1/deployments/devices/:id".
Proof.
  apply (device_ID_replaces_the_first_placeholder
           (Mock.world 0 (Mock.reply 200 "200 OK" "[]")) Mock.c "acme:id"
           "http://localhost:8080/api/internal/v1/deployments/tenants/" "acme" "" "dev1").
  - reflexivity.
  - reflexivity.
  - reflexivity.
  - reflexivity.
Defined.

(** X15 at IDs that hold an ampersand and an equals sign. *)
Lemma IDs_cannot_change_the_parameters_witness :
  exists req : Request,
    requests (snd (GetDeployments (Mock.world 0 (Mock.reply 200 "200 OK" "[]")) Mock.c
                     Mock.background "acme" ["a&id=b"; "c"])) = [req] /\
    count_byte "&" (RawQuery (req_URL req)) = 3 /\
    count_byte "=" (RawQuery (req_URL req)) = 4.
Proof.
  apply (IDs_cannot_change_the_parameters
           (Mock.world 0 (Mock.reply 200 "200 OK" "[]")) Mock.c Mock.background "acme"
           ["a&id=b"; "c"]
           (mkURL "http://localhost:8080/api/internal/v1/deployments/tenants/acme/deployments/devices" "")).
  - vm_compute. lia.
  - reflexivity.
  - reflexivity.
Defined.
